(** * creme.tree.decision.tree: the decision tree controller

    A shallow embedding of [creme/tree/decision/tree.py]: the [pairwise]
    helper, the constructor of [BaseDecisionTree], [fit_one],
    [_get_split_enum] and [predict_proba_one] of [DecisionTreeClassifier],
    together with the parts of [proba], [splitting] and [leaf] that these
    functions call.

    Python objects are modelled by value.  Integers are [Z]; a float is kept
    as an exact rational where the tree stores or returns it (a probability,
    a real hyperparameter) and as its IEEE-754 bit pattern where it is a
    feature value, whose type alone is inspected.  A method that can raise
    returns in [Exc]; a method of the tree controller is a function of the
    controller's state that returns its result together with the new state. *)

From Stdlib Require Import ZArith QArith Ascii.
From stdpp Require Import base option list strings gmap.

Local Open Scope string_scope.
Local Open Scope Z_scope.

(** ** Python values *)

(** The classes of the values met as feature values.  [TObject cls] is any
    other class, given by its name; such a class is neither registered as a
    [numbers.Number] nor a subclass of [str]. *)
Inductive PyType :=
| TNoneType
| TBool
| TInt
| TFloat
| TComplex
| TStr
| TObject (cls : string).

Inductive PyValue :=
| PyNone
| PyBool (b : bool)
| PyInt (n : Z)
| PyFloat (bits : Z)
| PyComplex (re_bits im_bits : Z)
| PyStr (s : string)
| PyObject (cls : string) (repr : string).

(** [type(value)] *)
Definition type (value : PyValue) : PyType :=
  match value with
  | PyNone => TNoneType
  | PyBool _ => TBool
  | PyInt _ => TInt
  | PyFloat _ => TFloat
  | PyComplex _ _ => TComplex
  | PyStr _ => TStr
  | PyObject cls _ => TObject cls
  end.

(** [issubclass(t, numbers.Number)]: [int], [float] and [complex] are
    registered with the numeric tower, and [bool] is a subclass of [int]. *)
Definition is_Number (t : PyType) : bool :=
  match t with
  | TBool | TInt | TFloat | TComplex => true
  | _ => false
  end.

(** [issubclass(t, (str, bool))] *)
Definition is_str_or_bool (t : PyType) : bool :=
  match t with
  | TStr | TBool => true
  | _ => false
  end.

Definition isinstance (value : PyValue) (cls : PyType -> bool) : bool :=
  cls (type value).

Global Instance PyType_eq_dec : EqDecision PyType.
Proof. solve_decision. Defined.

Global Instance PyValue_eq_dec : EqDecision PyValue.
Proof. solve_decision. Defined.

(** The pieces of a formatted string literal: literal text, a formatted
    value, a formatted class. *)
Inductive FPart :=
| FLit (s : string)
| FValue (v : PyValue)
| FType (t : PyType).

Inductive PyError :=
| KeyError (key : string)
| ValueError (msg : list FPart)
| UnboundLocalError (name : string)
| AttributeError (name : string).

Inductive Exc (A : Type) :=
| Ok (a : A)
| Raise (e : PyError).
Arguments Ok {A} a.
Arguments Raise {A} e.

Definition exc_bind {A B} (m : Exc A) (k : A -> Exc B) : Exc B :=
  match m with
  | Ok a => k a
  | Raise e => Raise e
  end.

Definition raises {A} (m : Exc A) : Prop := exists e, m = Raise e.
Definition returns {A} (m : Exc A) : Prop := exists a, m = Ok a.

(** ** itertools *)

Module itertools.

(** [tee(iterable)]: two independent iterators over the same items. *)
Definition tee {A} (iterable : list A) : list A * list A :=
  (iterable, iterable).

(** [next(it, None)] for its effect on [it]: the iterator that remains
    once the first item, when there is one, has been consumed. *)
Definition advance {A} (it : list A) : list A := tail it.

(** [zip_longest(a, b)]: the shorter side is filled with [None]. *)
Fixpoint zip_longest {A B} (a : list A) (b : list B)
  : list (option A * option B) :=
  match a with
  | [] => (fun y => (None, Some y)) <$> b
  | x :: a' =>
      match b with
      | [] => (Some x, None) :: zip_longest a' []
      | y :: b' => (Some x, Some y) :: zip_longest a' b'
      end
  end.

End itertools.

(** [pairwise]: [s -> (s0,s1), (s1,s2), ..., (sn, None)]. *)
Definition pairwise {A} (iterable : list A) : list (option A * option A) :=
  let '(a, b) := itertools.tee iterable in
  let b := itertools.advance b in
  itertools.zip_longest a b.

(** ** proba.Multinomial *)

(** A label is an opaque key; a string stands for it. *)
Definition Label := string.

(** An example [x]: a dict from feature name to value. *)
Definition Example := gmap string PyValue.

Module proba.

(** Modelled from the spec: [proba.Multinomial] is not among the sources.
    It is a mapping from label to observation count; [update] increments
    a count, [pmf] is count over total and 0 where nothing was observed,
    and iterating it gives the observed labels. *)
Definition Multinomial := gmap Label Z.

(** Modelled from the spec: [Multinomial()], the distribution that has
    observed nothing. *)
Definition empty : Multinomial := ∅.

(** Modelled from the spec: the count of a label, 0 for a label that was
    never observed. *)
Definition count (d : Multinomial) (label : Label) : Z :=
  default 0 (d !! label).

(** Modelled from the spec: [update(label, weight)] increments the count
    of the label. *)
Definition update (d : Multinomial) (label : Label) (weight : Z)
  : Multinomial :=
  <[label := count d label + weight]> d.

(** Modelled from the spec: [total()], the sum of the weights. *)
Definition total (d : Multinomial) : Z :=
  map_fold (fun _ n acc => n + acc) 0 d.

(** Modelled from the spec: [pmf(label)] is count over total, and 0 for
    every label when the distribution is empty.  The quotient of the two
    floats is kept as the exact rational. *)
Definition pmf (d : Multinomial) (label : Label) : Q :=
  if total d =? 0 then 0%Q
  else (inject_Z (count d label) / inject_Z (total d))%Q.

End proba.

(** A dict from label to probability, and the mass it gives a label. *)
Definition mass (pmf : gmap Label Q) (label : Label) : Q :=
  default 0%Q (pmf !! label).

(** ** splitting: the split enumerators *)

Module splitting.

(** Modelled from the spec: the module [splitting] is not among the
    sources.  A histogram enumerator is built from [n_bins] and
    [n_splits], as the source calls it; a categorical one keeps one
    target distribution per category.  The buckets of the histogram are
    merged on floating-point values; here the enumerator keeps the
    observations it has incorporated, newest first. *)
Record HistSplitEnum := {
  n_bins : Z;
  n_splits : Z;
  observed : list (PyValue * Label * Z)
}.

(** Modelled from the spec: the categorical enumerator, an exact mapping
    from category to target distribution. *)
Record CategoricalSplitEnum := {
  categories : list (PyValue * proba.Multinomial)
}.

(** Modelled from the spec: a split enumerator is of one of the two
    variants. *)
Inductive SplitEnum :=
| Hist (h : HistSplitEnum)
| Categorical (c : CategoricalSplitEnum).

(** Modelled from the spec: [HistSplitEnum(n_bins=..., n_splits=...)], a
    histogram enumerator that has observed nothing. *)
Definition new_HistSplitEnum (n_bins n_splits : Z) : SplitEnum :=
  Hist {| n_bins := n_bins; n_splits := n_splits; observed := [] |}.

(** Modelled from the spec: [CategoricalSplitEnum()], with no category
    yet. *)
Definition new_CategoricalSplitEnum : SplitEnum :=
  Categorical {| categories := [] |}.

(** The condition of a feature value that no enumerator takes, naming the
    value and its class: the [ValueError] of the source's
    [_get_split_enum], with its message. *)
Definition UnsupportedFeatureType (value : PyValue) : PyError :=
  ValueError [FLit "The type of "; FValue value; FLit " (";
              FType (type value); FLit ") is not supported"].

(** Modelled from the spec: the values an enumerator takes, numbers for a
    histogram, text and booleans for a categorical one. *)
Definition accepts (e : SplitEnum) (value : PyValue) : bool :=
  match e with
  | Hist _ => isinstance value is_Number
  | Categorical _ => isinstance value is_str_or_bool
  end.

(** Modelled from the spec: the observation goes to the distribution of
    its category, which is made when the category is new. *)
Fixpoint update_category (cs : list (PyValue * proba.Multinomial))
    (value : PyValue) (label : Label) (weight : Z)
  : list (PyValue * proba.Multinomial) :=
  match cs with
  | [] => [(value, proba.update proba.empty label weight)]
  | (v, d) :: cs' =>
      if decide (v = value) then (v, proba.update d label weight) :: cs'
      else (v, d) :: update_category cs' value label weight
  end.

(** Modelled from the spec: [update(value, label, weight)] incorporates
    one observation.  A value that the enumerator of the feature does not
    take, the type of the feature having changed from one example to
    another, is rejected as an unsupported feature type. *)
Definition update (e : SplitEnum) (value : PyValue) (label : Label)
    (weight : Z) : Exc SplitEnum :=
  if accepts e value then
    match e with
    | Hist h =>
        Ok (Hist {| n_bins := n_bins h; n_splits := n_splits h;
                    observed := (value, label, weight) :: observed h |})
    | Categorical c =>
        Ok (Categorical
              {| categories :=
                   update_category (categories c) value label weight |})
    end
  else Raise (UnsupportedFeatureType value).

End splitting.

(** ** Nodes *)

(** Modelled from the spec: the module [leaf] is not among the sources.  A
    leaf has its depth, its target distribution, one split enumerator per
    feature name, its sample count and the sample count at its last split
    attempt.  A branch has its split test, called on an example as the
    source's [debug_one] calls it, and its two children; the source reads
    [n_samples] and [target_dist] of every node of a path, so a branch
    keeps those of the leaf it replaced. *)
Record LeafState := {
  depth : Z;
  leaf_target_dist : proba.Multinomial;
  split_enums : gmap string splitting.SplitEnum;
  leaf_n_samples : Z;
  last_attempt : Z
}.

(** Modelled from the spec: a node is a leaf or a branch. *)
Inductive Node :=
| Leaf (s : LeafState)
| Branch (split : Example -> bool) (left right : Node)
         (branch_target_dist : proba.Multinomial) (branch_n_samples : Z).

(** Modelled from the spec: [node.target_dist] *)
Definition target_dist (node : Node) : proba.Multinomial :=
  match node with
  | Leaf s => leaf_target_dist s
  | Branch _ _ _ d _ => d
  end.

(** Modelled from the spec: [node.n_samples] *)
Definition n_samples (node : Node) : Z :=
  match node with
  | Leaf s => leaf_n_samples s
  | Branch _ _ _ _ n => n
  end.

(** Modelled from the spec: [Leaf(depth=..., tree=..., target_dist=...)],
    a leaf that has seen nothing.  The tree it belongs to is handed to its
    [update] instead of being kept in it. *)
Definition new_Leaf (depth : Z) (target_dist : proba.Multinomial) : Node :=
  Leaf {| depth := depth; leaf_target_dist := target_dist;
          split_enums := ∅; leaf_n_samples := 0; last_attempt := 0 |}.

(** Modelled from the spec: [branch.next(x)], the child that the split
    test routes [x] to. *)
Definition next (split : Example -> bool) (left right : Node) (x : Example)
  : Node :=
  if split x then left else right.

(** Modelled from the spec: [node.path(x)], the nodes visited from [node]
    down to the leaf that [x] is routed to. *)
Fixpoint path (node : Node) (x : Example) : list Node :=
  match node with
  | Leaf _ => [node]
  | Branch split l r _ _ => node :: path (next split l r x) x
  end.

(** ** The tree controller *)

(** Modelled from the spec: the module [criteria] is not among the
    sources; its two impurity functions are kept by name. *)
Inductive Criterion :=
| gini_impurity
| entropy.

Definition CRITERIA_CLF : gmap string Criterion :=
  {[ "gini" := gini_impurity; "entropy" := entropy ]}.

(** [d[key]] *)
Definition getitem {V} (d : gmap string V) (key : string) : Exc V :=
  match d !! key with
  | Some v => Ok v
  | None => Raise (KeyError key)
  end.

Record DecisionTreeClassifier := {
  criterion : Criterion;
  patience : Z;
  max_depth : Z;
  min_split_gain : Q;
  min_child_samples : Z;
  confidence : Q;
  tie_threshold : Q;
  n_split_points : Z;
  max_bins : Z;
  curtail_under : Z;
  root : Node
}.

(** [self.root = r] *)
Definition with_root (r : Node) (self : DecisionTreeClassifier)
  : DecisionTreeClassifier :=
  {| criterion := criterion self; patience := patience self;
     max_depth := max_depth self; min_split_gain := min_split_gain self;
     min_child_samples := min_child_samples self;
     confidence := confidence self; tie_threshold := tie_threshold self;
     n_split_points := n_split_points self; max_bins := max_bins self;
     curtail_under := curtail_under self; root := r |}.

(** [BaseDecisionTree.__init__]: the criterion is looked up by name, the
    other arguments are stored as given, and the root is a new leaf. *)
Definition __init__ (criterion : string) (patience max_depth : Z)
    (min_split_gain : Q) (min_child_samples : Z)
    (confidence tie_threshold : Q)
    (n_split_points max_bins curtail_under : Z)
  : Exc DecisionTreeClassifier :=
  exc_bind (getitem CRITERIA_CLF criterion) (fun c =>
  Ok {| criterion := c; patience := patience; max_depth := max_depth;
        min_split_gain := min_split_gain;
        min_child_samples := min_child_samples;
        confidence := confidence; tie_threshold := tie_threshold;
        n_split_points := n_split_points; max_bins := max_bins;
        curtail_under := curtail_under;
        root := new_Leaf 0 proba.empty |}).

(** The constructor called with its default arguments, but for the
    criterion. *)
Definition __init__defaults (criterion : string)
  : Exc DecisionTreeClassifier :=
  __init__ criterion 250 5 0%Q 20 (1 # 10000000000)%Q (5 # 100)%Q 30 60 10.

(** [_make_leaf_dist]: the target distribution of a new leaf. *)
Definition _make_leaf_dist (self : DecisionTreeClassifier)
  : proba.Multinomial :=
  proba.empty.

(** [_get_split_enum]: a split enumerator for a value, by its type. *)
Definition _get_split_enum (self : DecisionTreeClassifier) (value : PyValue)
  : Exc splitting.SplitEnum :=
  if isinstance value is_Number then
    Ok (splitting.new_HistSplitEnum (max_bins self) (n_split_points self))
  else if isinstance value is_str_or_bool then
    Ok splitting.new_CategoricalSplitEnum
  else
    Raise (ValueError [FLit "The type of "; FValue value; FLit " (";
                       FType (type value); FLit ") is not supported"]).

(** ** Methods of the controller *)

(** A method runs on the controller's state and either raises or returns a
    value and the state it leaves. *)
Definition Method (A : Type) : Type :=
  DecisionTreeClassifier -> Exc (A * DecisionTreeClassifier).

Definition ret {A} (a : A) : Method A := fun self => Ok (a, self).

Definition bind {A B} (m : Method A) (k : A -> Method B) : Method B :=
  fun self =>
    match m self with
    | Ok (a, self') => k a self'
    | Raise e => Raise e
    end.

Definition get_self : Method DecisionTreeClassifier :=
  fun self => Ok (self, self).

Definition set_root (r : Node) : Method unit :=
  fun self => Ok (tt, with_root r self).

Definition lift {A} (m : Exc A) : Method A :=
  fun self =>
    match m with
    | Ok a => Ok (a, self)
    | Raise e => Raise e
    end.

Declare Scope method_scope.
Delimit Scope method_scope with method.
Notation "x <- m ;; k" := (bind m (fun x => k))
  (at level 100, m at next level, right associativity) : method_scope.
Notation "m ;; k" := (bind m (fun _ => k))
  (at level 100, right associativity) : method_scope.

Declare Scope exc_scope.
Delimit Scope exc_scope with exc.
Notation "x <- m ;; k" := (exc_bind m (fun x => k))
  (at level 100, m at next level, right associativity) : exc_scope.

(** What a call hands back to its caller besides the state: nothing, or
    the controller itself. *)
Inductive Returned :=
| ReturnsNone
| ReturnsSelf.

(** ** Leaf.update and the descent of fit *)

Section Growth.

(** Modelled from the spec: steps 4 to 6 of a split attempt rank the
    candidate splits by gain and test the best two against the Hoeffding
    bound, with square roots and logarithms of floats.  Their outcome, the
    split test of the winning candidate when a split is authorized, is a
    parameter. *)
Variable authorized_split :
  DecisionTreeClassifier -> LeafState -> option (Example -> bool).

(** Modelled from the spec: step 2 of [Leaf.update].  Each feature of [x]
    is routed to its split enumerator, which the tree makes with
    [_get_split_enum] when the leaf has none for the feature. *)
Fixpoint update_enums (tree : DecisionTreeClassifier)
    (enums : gmap string splitting.SplitEnum)
    (items : list (string * PyValue)) (label : Label)
  : Exc (gmap string splitting.SplitEnum) :=
  match items with
  | [] => Ok enums
  | (i, xi) :: rest =>
      (e <- match enums !! i with
            | Some e => Ok e
            | None => _get_split_enum tree xi
            end ;;
       e' <- splitting.update e xi label 1 ;;
       update_enums tree (<[i := e']> enums) rest label)%exc
  end.

(** Modelled from the spec: [Leaf.update] is not among the sources.  It
    updates the target distribution and the enumerators, counts the
    sample, and attempts a split once [patience] samples have come since
    the last attempt, unless the leaf is at [max_depth].  An authorized
    split answers with a branch over two new leaves one level down. *)
Definition Leaf_update (tree : DecisionTreeClassifier) (s : LeafState)
    (x : Example) (y : Label) : Exc Node :=
  let dist := proba.update (leaf_target_dist s) y 1 in
  (enums <- update_enums tree (split_enums s) (map_to_list x) y ;;
   let n := leaf_n_samples s + 1 in
   if (max_depth tree <=? depth s) || (n - last_attempt s <? patience tree)
   then
     Ok (Leaf {| depth := depth s; leaf_target_dist := dist;
                 split_enums := enums; leaf_n_samples := n;
                 last_attempt := last_attempt s |})
   else
     let s' := {| depth := depth s; leaf_target_dist := dist;
                  split_enums := enums; leaf_n_samples := n;
                  last_attempt := n |} in
     match authorized_split tree s' with
     | None => Ok (Leaf s')
     | Some split =>
         Ok (Branch split
               (new_Leaf (depth s + 1) (_make_leaf_dist tree))
               (new_Leaf (depth s + 1) (_make_leaf_dist tree))
               dist n)
     end)%exc.

(** Modelled from the spec: [node.update(x, y)].  A branch hands the
    example to the child it is routed to and keeps what that child answers
    in its place. *)
Fixpoint Node_update (tree : DecisionTreeClassifier) (node : Node)
    (x : Example) (y : Label) : Exc Node :=
  match node with
  | Leaf s => Leaf_update tree s x y
  | Branch split l r d n =>
      if split x then
        (l' <- Node_update tree l x y ;; Ok (Branch split l' r d n))%exc
      else
        (r' <- Node_update tree r x y ;; Ok (Branch split l r' d n))%exc
  end.

(** [fit_one]: the root becomes what its update answers, and the
    controller itself is returned. *)
Definition fit_one (x : Example) (y : Label) : Method Returned :=
  (self <- get_self ;;
   r <- lift (Node_update self (root self) x y) ;;
   set_root r ;;
   ret ReturnsSelf)%method.

(** [fit_one] on each pair of a stream, in turn. *)
Fixpoint fit_all (stream : list (Example * Label)) : Method unit :=
  match stream with
  | [] => ret tt
  | (x, y) :: rest => (fit_one x y ;; fit_all rest)%method
  end.

End Growth.

(** ** predict_proba_one *)

(** The [for] loop of [predict_proba_one] over the pairs of the path: the
    binding of the loop variable [node] when the loop is left, by [break]
    or at the end of the pairs.  [None] is no binding at all. *)
Fixpoint curtail (curtail_under : Z)
    (pairs : list (option Node * option Node))
    (node : option (option Node)) : option (option Node) :=
  match pairs with
  | [] => node
  | (node', child) :: rest =>
      match child with
      | None => Some node'
      | Some c =>
          if n_samples c <? curtail_under then Some node'
          else curtail curtail_under rest (Some node')
      end
  end.

(** [node.target_dist] for the variable [node] after the loop. *)
Definition bound_node (node : option (option Node)) : Exc Node :=
  match node with
  | None => Raise (UnboundLocalError "node")
  | Some None => Raise (AttributeError "target_dist")
  | Some (Some n) => Ok n
  end.

(** [{c: d.pmf(c) for c in d}] *)
Definition pmf_dict (d : proba.Multinomial) : gmap Label Q :=
  map_imap (fun c _ => Some (proba.pmf d c)) d.

Definition predict_proba_one (x : Example) : Method (gmap Label Q) :=
  (self <- get_self ;;
   node <- lift (bound_node
                   (curtail (curtail_under self)
                            (pairwise (path (root self) x)) None)) ;;
   ret (pmf_dict (target_dist node)))%method.

(** ** draw *)

(** [len(s)] *)
Definition len (s : string) : nat := String.length s.

(** [s[:-1]]: the string without its last character. *)
Fixpoint drop_last (s : string) : string :=
  match s with
  | EmptyString => EmptyString
  | String c EmptyString => EmptyString
  | String c s' => String c (drop_last s')
  end.

(** The text that [str] gives for a target distribution or for a split
    test; the two [__str__] methods are not among the sources, so the text
    is kept as the object it is made from. *)
Inductive DotLabel :=
| StrDist (d : proba.Multinomial)
| StrSplit (split : Example -> bool).

Module graphviz.

(** A statement of the body of a [Digraph]: a node with its name, its label
    and its [shape] attribute when one is given, or an edge between two
    node names. *)
Inductive Stmt :=
| Node (name : string) (label : DotLabel) (shape : option string)
| Edge (tail_name head_name : string).

(** [Digraph()]: the body, in the order the statements were added. *)
Definition Digraph := list Stmt.

(** [dot.node(name, label, shape=...)] *)
Definition node (name : string) (label : DotLabel) (shape : option string)
    (dot : Digraph) : Digraph :=
  (dot ++ [Node name label shape])%list.

(** [dot.edge(tail_name, head_name)] *)
Definition edge (tail_name head_name : string) (dot : Digraph) : Digraph :=
  (dot ++ [Edge tail_name head_name])%list.

End graphviz.

(** The local function [add_node] of [draw]: the node is drawn, a branch
    then draws its two children under the names [path0] and [path1], and
    every node but the one whose name has length 1 is linked to the name
    without its last character. *)
Fixpoint add_node (node : Node) (path : string) (dot : graphviz.Digraph)
  : graphviz.Digraph :=
  let dot :=
    match node with
    | Leaf _ =>
        graphviz.node path (StrDist (target_dist node)) (Some "box") dot
    | Branch split l r _ _ =>
        let dot := graphviz.node path (StrSplit split) None dot in
        let dot := add_node l (path +:+ "0") dot in
        add_node r (path +:+ "1") dot
    end in
  let is_root := Nat.eqb (len path) 1 in
  if negb is_root then graphviz.edge (drop_last path) path dot else dot.

(** [draw]: the graph of the tree, drawn from the root under the name 0. *)
Definition draw : Method graphviz.Digraph :=
  (self <- get_self ;;
   ret (add_node (root self) "0" []))%method.

(** ** debug_one *)

(** An argument of a call of [print]. *)
Inductive PrintArg :=
| ArgStr (s : string)
| ArgSplit (split : Example -> bool)
| ArgDist (d : proba.Multinomial).

(** The [for] loop of [debug_one] over the nodes of the path: the calls of
    [print] it makes, in order.  A leaf prints its target distribution and
    ends the loop; a branch prints its split, after the word not when the
    split holds of [x]. *)
Fixpoint debug_loop (nodes : list Node) (x : Example)
  : list (list PrintArg) :=
  match nodes with
  | [] => []
  | node :: rest =>
      match node with
      | Leaf _ => [[ArgDist (target_dist node)]]
      | Branch split _ _ _ _ =>
          (if split x then [ArgStr "not"; ArgSplit split]
           else [ArgSplit split]) :: debug_loop rest x
      end
  end.

(** [debug_one]: it returns nothing; its value here is what it prints. *)
Definition debug_one (x : Example) : Method (list (list PrintArg)) :=
  (self <- get_self ;;
   ret (debug_loop (path (root self) x) x))%method.

(** ** creme.datasets.synth *)

Module synth.

(** The [from .module import Name] lines, in order. *)
Definition imports : list (string * string) :=
  [("agrawal", "Agrawal"); ("anomaly_sine", "AnomalySine");
   ("friedman", "Friedman"); ("hyper_plane", "Hyperplane");
   ("led", "LED"); ("led", "LEDDrift"); ("logical", "Logical");
   ("mixed", "Mixed"); ("random_rbf", "RandomRBF");
   ("random_rbf", "RandomRBFDrift"); ("random_tree", "RandomTree");
   ("sea", "SEA"); ("sine", "Sine"); ("stagger", "STAGGER");
   ("waveform", "Waveform")].

Definition __all__ : list string :=
  ["Agrawal"; "AnomalySine"; "Friedman"; "Hyperplane"; "LED"; "LEDDrift";
   "Logical"; "Mixed"; "RandomRBF"; "RandomRBFDrift"; "RandomTree"; "SEA";
   "Sine"; "STAGGER"; "Waveform"].

End synth.

(** ** The notions the properties are stated with *)

(** Position [k] of a path is one where the walk may stop: the node there
    has no child on the path, or a child with fewer than [curtail_under]
    samples. *)
Definition eligible (curtail_under : Z) (p : list Node) (k : nat) : bool :=
  match p !! S k with
  | None => true
  | Some child => n_samples child <? curtail_under
  end.

(** [k] is the first, respectively the last, such position of the path. *)
Definition is_first_eligible (curtail_under : Z) (p : list Node) (k : nat)
  : bool :=
  eligible curtail_under p k
  && forallb (fun j => negb (eligible curtail_under p j)) (seq 0 k).



(** Every node of the path below the root and down to position [k] has at
    least [curtail_under] samples. *)
Definition mature_down_to (curtail_under : Z) (p : list Node) (k : nat)
  : bool :=
  forallb (fun a => curtail_under <=? n_samples a) (drop 1 (take (S k) p)).

(** Some node above position [k] of the path has at least [curtail_under]
    samples. *)
Definition has_mature_ancestor (curtail_under : Z) (p : list Node) (k : nat)
  : bool :=
  existsb (fun a => curtail_under <=? n_samples a) (take k p).


(** The types of feature values an example may carry: numbers, text and
    booleans. *)
Definition supported_type (t : PyType) : bool :=
  match t with
  | TInt | TFloat | TComplex => true
  | TStr => true
  | TBool => true
  | _ => false
  end.

(** The error names the value and its type. *)
Definition names_value_and_type (e : PyError) (value : PyValue) : Prop :=
  exists msg : list FPart,
    e = ValueError msg /\ FValue value ∈ msg /\ FType (type value) ∈ msg.

(** The constraints stated for the constructor's arguments: a criterion
    among gini and entropy, [patience] at least 1, [min_split_gain] and
    [tie_threshold] not negative, [min_child_samples] not negative,
    [confidence] strictly between 0 and 1, [n_split_points] and [max_bins]
    at least 1. *)
Definition valid_configuration (criterion : string) (patience max_depth : Z)
    (min_split_gain : Q) (min_child_samples : Z)
    (confidence tie_threshold : Q)
    (n_split_points max_bins curtail_under : Z) : bool :=
  bool_decide (criterion ∈ ["gini"; "entropy"])
  && (1 <=? patience)
  && Qle_bool 0 min_split_gain
  && (0 <=? min_child_samples)
  && negb (Qle_bool confidence 0) && negb (Qle_bool 1 confidence)
  && Qle_bool 0 tie_threshold
  && (1 <=? n_split_points)
  && (1 <=? max_bins).

(** The leaf an example is routed to. *)
Fixpoint reached_leaf (node : Node) (x : Example) : LeafState :=
  match node with
  | Leaf s => s
  | Branch split l r _ _ => reached_leaf (next split l r x) x
  end.

(** A feature value is well typed for a leaf: its type is a supported one,
    and it is one that the enumerator the leaf already has for the feature
    takes. *)
Definition well_typed_value (enums : gmap string splitting.SplitEnum)
    (item : string * PyValue) : bool :=
  supported_type (type item.2)
  && match enums !! item.1 with
     | Some e => splitting.accepts e item.2
     | None => true
     end.

Definition well_typed (node : Node) (x : Example) : bool :=
  forallb (well_typed_value (split_enums (reached_leaf node x)))
          (map_to_list x).

(** ** The shape of a tree and of its drawing *)

(** The numbers of nodes, of leaves and of branches of a tree. *)
Fixpoint size (node : Node) : nat :=
  match node with
  | Leaf _ => 1
  | Branch _ l r _ _ => S (size l + size r)
  end.

Fixpoint leaves (node : Node) : nat :=
  match node with
  | Leaf _ => 1
  | Branch _ l r _ _ => (leaves l + leaves r)%nat
  end.

Fixpoint branches (node : Node) : nat :=
  match node with
  | Leaf _ => 0
  | Branch _ l r _ _ => S (branches l + branches r)
  end.

(** The node at an address: from the node, [false] goes to the left child
    and [true] to the right one. *)
Fixpoint subtree (node : Node) (w : list bool) {struct w} : option Node :=
  match w with
  | [] => Some node
  | b :: w' =>
      match node with
      | Leaf _ => None
      | Branch _ l r _ _ => subtree (if b then r else l) w'
      end
  end.

(** An address written with the characters 0 and 1. *)
Fixpoint bits (w : list bool) : string :=
  match w with
  | [] => ""
  | b :: w' => String (if b then "1" else "0")%char (bits w')
  end.

(** The label and the shape a node is drawn with. *)
Definition drawn_as (node : Node) : DotLabel * option string :=
  match node with
  | Leaf _ => (StrDist (target_dist node), Some "box")
  | Branch split _ _ _ _ => (StrSplit split, None)
  end.

(** The nodes of a graph, their names, its boxes and its edges. *)
Definition dot_nodes (dot : graphviz.Digraph)
  : list (string * DotLabel * option string) :=
  omap (fun st => match st with
                  | graphviz.Node n l s => Some (n, l, s)
                  | graphviz.Edge _ _ => None
                  end) dot.

Definition dot_names (dot : graphviz.Digraph) : list string :=
  (fun nd => nd.1.1) <$> dot_nodes dot.

Definition dot_boxes (dot : graphviz.Digraph)
  : list (string * DotLabel * option string) :=
  filter (fun nd => nd.2 = Some "box") (dot_nodes dot).

Definition dot_edges (dot : graphviz.Digraph) : list (string * string) :=
  omap (fun st => match st with
                  | graphviz.Node _ _ _ => None
                  | graphviz.Edge t h => Some (t, h)
                  end) dot.

(** What [debug_one] prints for a node of the path of [x]. *)
Definition printed_for (x : Example) (node : Node) : list PrintArg :=
  match node with
  | Leaf _ => [ArgDist (target_dist node)]
  | Branch split _ _ _ _ =>
      if split x then [ArgStr "not"; ArgSplit split] else [ArgSplit split]
  end.

(** ** Some trees and examples *)

(** A split oracle that never authorizes a split. *)
Definition never_split (tree : DecisionTreeClassifier) (s : LeafState)
  : option (Example -> bool) := None.

(** A split oracle that authorizes a split of the root at its 100th sample
    and of a leaf at depth 1 at its 5th sample, both on a test that sends
    every example to the left. *)
Definition split_at (tree : DecisionTreeClassifier) (s : LeafState)
  : option (Example -> bool) :=
  if (depth s =? 0) && (leaf_n_samples s =? 100) then Some (fun _ => true)
  else if (depth s =? 1) && (leaf_n_samples s =? 5) then Some (fun _ => true)
  else None.

(** Streams of examples without features: 60 of label a and 40 of label b,
    and then 3 of a, 2 of b and 20 of a. *)
Definition stream_100 : list (Example * Label) :=
  replicate 60 (∅, "a") ++ replicate 40 (∅, "b").

Definition stream_125 : list (Example * Label) :=
  stream_100 ++ replicate 3 (∅, "a") ++ replicate 2 (∅, "b")
  ++ replicate 20 (∅, "a").

(** A tree whose root has split after 100 samples, with two leaves that
    have seen nothing yet. *)
Definition grown_tree : DecisionTreeClassifier :=
  {| criterion := gini_impurity; patience := 100; max_depth := 5;
     min_split_gain := 0%Q; min_child_samples := 20;
     confidence := (1 # 100000)%Q; tie_threshold := (5 # 100)%Q;
     n_split_points := 30; max_bins := 60; curtail_under := 10;
     root := Branch (fun _ => true)
               (new_Leaf 1 proba.empty) (new_Leaf 1 proba.empty)
               {[ "a" := 60; "b" := 40 ]} 100 |}.

(** A tree of three levels: the root split after 100 samples, its left
    child after 5, and the leaf below that child has seen 20 samples. *)
Definition deep_tree : DecisionTreeClassifier :=
  {| criterion := gini_impurity; patience := 5; max_depth := 5;
     min_split_gain := 0%Q; min_child_samples := 1;
     confidence := (1 # 100000)%Q; tie_threshold := (5 # 100)%Q;
     n_split_points := 30; max_bins := 60; curtail_under := 10;
     root := Branch (fun _ => true)
               (Branch (fun _ => true)
                  (Leaf {| depth := 2;
                           leaf_target_dist := {[ "a" := 20 ]};
                           split_enums := ∅; leaf_n_samples := 20;
                           last_attempt := 20 |})
                  (new_Leaf 2 proba.empty)
                  {[ "a" := 3; "b" := 2 ]} 5)
               (new_Leaf 1 proba.empty)
               {[ "a" := 60; "b" := 40 ]} 100 |}.

(** The same tree of three levels with [curtail_under] 5. *)
Definition deep_tree_5 : DecisionTreeClassifier :=
  {| criterion := criterion deep_tree; patience := patience deep_tree;
     max_depth := max_depth deep_tree;
     min_split_gain := min_split_gain deep_tree;
     min_child_samples := min_child_samples deep_tree;
     confidence := confidence deep_tree;
     tie_threshold := tie_threshold deep_tree;
     n_split_points := n_split_points deep_tree;
     max_bins := max_bins deep_tree; curtail_under := 5;
     root := root deep_tree |}.

(** The tree that the constructor makes from its default arguments. *)
Definition default_tree : DecisionTreeClassifier :=
  {| criterion := gini_impurity; patience := 250; max_depth := 5;
     min_split_gain := 0%Q; min_child_samples := 20;
     confidence := (1 # 10000000000)%Q; tie_threshold := (5 # 100)%Q;
     n_split_points := 30; max_bins := 60; curtail_under := 10;
     root := new_Leaf 0 proba.empty |}.

(** An example with one numeric feature. *)
Definition one_feature : Example := {[ "f" := PyFloat 0 ]}.

(** * Properties *)

(** ** pairwise *)

Example pairwise_three :
  pairwise [1; 2; 3] = [(Some 1, Some 2); (Some 2, Some 3); (Some 3, None)].
Proof. reflexivity. Qed.

Lemma zip_longest_nil_r {A B} (a : list A) :
  itertools.zip_longest a (@nil B) = (fun x => (Some x, None)) <$> a.
Proof. induction a as [|x a IH]; simpl; [done | by rewrite IH]. Qed.

Lemma pairwise_cons {A} (s0 : A) (s : list A) :
  pairwise (s0 :: s) = itertools.zip_longest (s0 :: s) s.
Proof. reflexivity. Qed.

Lemma pairwise_cons_cons {A} (s0 s1 : A) (s : list A) :
  pairwise (s0 :: s1 :: s) = (Some s0, Some s1) :: pairwise (s1 :: s).
Proof. reflexivity. Qed.

Lemma pairwise_singleton {A} (s0 : A) : pairwise [s0] = [(Some s0, None)].
Proof. reflexivity. Qed.

Lemma pairwise_zip {A} (s : list A) :
  pairwise s = zip (Some <$> s) ((Some <$> tail s) ++ [None]).
Proof.
  destruct s as [|s0 s]; [done |].
  revert s0. induction s as [|s1 s IH]; intros s0; [done |].
  rewrite pairwise_cons_cons, IH. reflexivity.
Qed.

Lemma pairwise_lookup {A} (s : list A) (i : nat) :
  pairwise s !! i = (fun si => (Some si, s !! S i)) <$> s !! i.
Proof.
  destruct s as [|s0 s]; [done |].
  revert s0 i. induction s as [|s1 s IH]; intros s0 i.
  - destruct i as [|i]; [done |]. by destruct i.
  - rewrite pairwise_cons_cons. destruct i as [|i]; [done |]. apply IH.
Qed.

Lemma path_nonempty (node : Node) (x : Example) :
  exists rest, path node x = node :: rest.
Proof. destruct node; simpl; eauto. Qed.

(** C10: for a sequence s0, ..., sn, [pairwise] yields (s0,s1), ...,
    (s(n-1),sn), (sn,None) in that order, one pair per element, and nothing
    for the empty sequence; on the path of an example the walk therefore
    meets every node paired with its successor, and the last node paired
    with [None]. *)
Theorem pairwise_successive_pairs {A} (s : list A) :
  pairwise (@nil A) = []
  /\ pairwise s = zip (Some <$> s) ((Some <$> tail s) ++ [None])
  /\ length (pairwise s) = length s
  /\ (forall i : nat,
        pairwise s !! i = (fun si => (Some si, s !! S i)) <$> s !! i)
  /\ (forall (node : Node) (x : Example),
        let p := path node x in
        forall i : nat,
          pairwise p !! i = (fun n => (Some n, p !! S i)) <$> p !! i)
  /\ (forall (node : Node) (x : Example),
        last (pairwise (path node x)) = Some (last (path node x), None)).
Proof.
  split; [done |]. split; [apply pairwise_zip |].
  split.
  { rewrite pairwise_zip, length_zip, !length_fmap, length_app, length_fmap.
    destruct s as [|s0 s]; [done |]. cbn [tail length]. lia. }
  split; [apply pairwise_lookup |].
  split; [intros node x p i; apply pairwise_lookup |].
  intros node x. destruct (path_nonempty node x) as [rest ->].
  revert node. induction rest as [|n1 rest IH]; intros node; [done |].
  rewrite pairwise_cons_cons.
  change (last (node :: n1 :: rest)) with (last (n1 :: rest)).
  rewrite <- IH. by destruct rest.
Qed.

(** ** The curtailment walk *)

Lemma is_first_eligible_spec (cu : Z) (p : list Node) (k : nat) :
  is_first_eligible cu p k = true
  <-> eligible cu p k = true
      /\ forall j : nat, (j < k)%nat -> eligible cu p j = false.
Proof.
  unfold is_first_eligible.
  rewrite andb_true_iff, forallb_forall.
  split; intros [He Hj]; (split; [done |]).
  - intros j Hlt. apply negb_true_iff, Hj, in_seq. lia.
  - intros j [_ Hlt]%in_seq. apply negb_true_iff, Hj. lia.
Qed.

Lemma eligible_cons (cu : Z) (n0 : Node) (p : list Node) (k : nat) :
  eligible cu (n0 :: p) (S k) = eligible cu p k.
Proof. reflexivity. Qed.

Lemma is_first_eligible_cons (cu : Z) (n0 : Node) (p : list Node) (k : nat) :
  eligible cu (n0 :: p) 0 = false ->
  is_first_eligible cu p k = true ->
  is_first_eligible cu (n0 :: p) (S k) = true.
Proof.
  rewrite !is_first_eligible_spec. intros H0 [He Hj].
  split; [done |]. intros [|j] Hlt; [done |].
  rewrite eligible_cons. apply Hj. lia.
Qed.

(** Where the loop leaves [node]: at the first position of the path where
    it may stop, which is the root or a node with at least [curtail_under]
    samples. *)
Lemma curtail_pairwise (cu : Z) (n0 : Node) (rest : list Node)
    (b : option (option Node)) :
  exists (k : nat) (node : Node),
    (n0 :: rest) !! k = Some node
    /\ is_first_eligible cu (n0 :: rest) k = true
    /\ curtail cu (pairwise (n0 :: rest)) b = Some (Some node)
    /\ (k = 0%nat \/ cu <= n_samples node).
Proof.
  revert n0 b. induction rest as [|n1 rest IH]; intros n0 b.
  - exists 0%nat, n0. repeat split; auto.
  - rewrite pairwise_cons_cons. cbn [curtail].
    destruct (n_samples n1 <? cu) eqn:Hlt.
    + exists 0%nat, n0. repeat split; auto.
      unfold is_first_eligible, eligible. cbn. by rewrite Hlt.
    + destruct (IH n1 (Some (Some n0))) as (k & node & Hk & Hf & Hc & Hm).
      exists (S k), node. split; [done |].
      split; [apply is_first_eligible_cons; [by cbn; rewrite Hlt | done] |].
      split; [done |]. right.
      destruct Hm as [-> | Hm]; [| done].
      cbn in Hk. injection Hk as <-. lia.
Qed.

Lemma predict_proba_one_eq (self : DecisionTreeClassifier) (x : Example) :
  exists (k : nat) (node : Node),
    path (root self) x !! k = Some node
    /\ is_first_eligible (curtail_under self) (path (root self) x) k = true
    /\ predict_proba_one x self = Ok (pmf_dict (target_dist node), self)
    /\ (k = 0%nat \/ curtail_under self <= n_samples node).
Proof.
  destruct (path_nonempty (root self) x) as [rest Hp].
  destruct (curtail_pairwise (curtail_under self) (root self) rest None)
    as (k & node & Hk & Hf & Hc & Hm).
  exists k, node. rewrite Hp. repeat split; try done.
  unfold predict_proba_one, bind, get_self, lift, ret.
  by rewrite Hp, Hc.
Qed.

Lemma first_eligible_mature (cu : Z) (p : list Node) (k : nat) :
  is_first_eligible cu p k = true -> mature_down_to cu p k = true.
Proof.
  rewrite is_first_eligible_spec. intros [_ Hj].
  unfold mature_down_to. apply forallb_forall. intros a Ha.
  apply list_elem_of_In, list_elem_of_lookup in Ha as [j Ha].
  rewrite lookup_drop in Ha. apply lookup_take_Some in Ha as [Ha Hlt].
  specialize (Hj j ltac:(lia)). unfold eligible in Hj.
  change (S j) with (1 + j)%nat in Hj. rewrite Ha in Hj.
  apply Z.leb_le. by apply Z.ltb_ge.
Qed.

(** Where the walk of [predict_proba_one] stops: at the first node of the
    path of [x] whose child on the path does not exist or has fewer than
    [curtail_under] samples; every node of the path below the root and down
    to that node has at least [curtail_under] samples. *)
Lemma predict_first_eligible (self : DecisionTreeClassifier) (x : Example) :
  exists (k : nat) (node : Node),
    path (root self) x !! k = Some node
    /\ is_first_eligible (curtail_under self) (path (root self) x) k = true
    /\ mature_down_to (curtail_under self) (path (root self) x) k = true
    /\ predict_proba_one x self = Ok (pmf_dict (target_dist node), self).
Proof.
  destruct (predict_proba_one_eq self x) as (k & node & Hk & Hf & Hp & _).
  exists k, node. repeat split; try done.
  by apply first_eligible_mature.
Qed.

(** C2: the node whose distribution [predict_proba_one] returns does not
    have fewer than [curtail_under] samples while a node above it on the
    path of [x] has at least [curtail_under]. *)
Theorem predict_curtailment_monotone (self : DecisionTreeClassifier)
    (x : Example) :
  exists (k : nat) (node : Node),
    path (root self) x !! k = Some node
    /\ is_first_eligible (curtail_under self) (path (root self) x) k = true
    /\ predict_proba_one x self = Ok (pmf_dict (target_dist node), self)
    /\ (n_samples node <? curtail_under self)
       && has_mature_ancestor (curtail_under self) (path (root self) x) k
       = false.
Proof.
  destruct (predict_proba_one_eq self x) as (k & node & Hk & Hf & Hp & Hm).
  exists k, node. repeat split; try done.
  destruct Hm as [-> | Hm].
  - unfold has_mature_ancestor. rewrite take_0. apply andb_false_r.
  - apply andb_false_iff. left. apply Z.ltb_ge. done.
Qed.

(** C7: two calls of [predict_proba_one] on the same [x], one after the
    other, return the same result, and the tree is left as it was. *)
Theorem predict_idempotent (self : DecisionTreeClassifier) (x : Example) :
  exists r : gmap Label Q,
    predict_proba_one x self = Ok (r, self)
    /\ (r1 <- predict_proba_one x ;;
        r2 <- predict_proba_one x ;;
        ret (r1, r2))%method self = Ok ((r, r), self).
Proof.
  destruct (predict_proba_one_eq self x) as (k & node & _ & _ & Hp & _).
  exists (pmf_dict (target_dist node)). split; [done |].
  unfold bind at 1. rewrite Hp. unfold bind. by rewrite Hp.
Qed.

(** The two trees are states that [fit_one] reaches from the constructor. *)
Example grown_tree_reached :
  (t <- __init__ "gini" 100 5 0%Q 20 (1 # 100000)%Q (5 # 100)%Q 30 60 10 ;;
   fit_all split_at stream_100 t)%exc = Ok (tt, grown_tree).
Proof. vm_compute. reflexivity. Qed.

Example deep_tree_reached :
  (t <- __init__ "gini" 5 5 0%Q 1 (1 # 100000)%Q (5 # 100)%Q 30 60 10 ;;
   fit_all split_at stream_125 t)%exc = Ok (tt, deep_tree).
Proof. vm_compute. reflexivity. Qed.


(** ** Construction *)

Example init_defaults_gini : __init__defaults "gini" = Ok default_tree.
Proof. reflexivity. Qed.

Example init_defaults_unknown :
  __init__defaults "mse" = Raise (KeyError "mse").
Proof. reflexivity. Qed.

Lemma CRITERIA_CLF_lookup (name : string) :
  CRITERIA_CLF !! name =
    if decide (name = "gini") then Some gini_impurity
    else if decide (name = "entropy") then Some entropy
    else None.
Proof.
  unfold CRITERIA_CLF.
  destruct (decide (name = "gini")) as [-> | Hg]; [done |].
  rewrite lookup_insert_ne by done.
  destruct (decide (name = "entropy")) as [-> | He]; [done |].
  by rewrite lookup_singleton_ne.
Qed.

Lemma init_root (criterion : string) (patience max_depth : Z)
    (min_split_gain : Q) (min_child_samples : Z)
    (confidence tie_threshold : Q)
    (n_split_points max_bins curtail_under : Z)
    (self : DecisionTreeClassifier) :
  __init__ criterion patience max_depth min_split_gain min_child_samples
    confidence tie_threshold n_split_points max_bins curtail_under = Ok self ->
  root self = new_Leaf 0 proba.empty.
Proof.
  unfold __init__, exc_bind.
  destruct (getitem CRITERIA_CLF criterion); [| discriminate].
  by intros [= <-].
Qed.

(** C9: the tree that the constructor returns has as its root a new leaf
    at depth 0 with an empty target distribution, which has seen no sample
    and is the whole path of every example. *)
Theorem init_root_is_fresh_leaf (criterion : string) (patience max_depth : Z)
    (min_split_gain : Q) (min_child_samples : Z)
    (confidence tie_threshold : Q)
    (n_split_points max_bins curtail_under : Z)
    (self : DecisionTreeClassifier)
    (Hinit : __init__ criterion patience max_depth min_split_gain
               min_child_samples confidence tie_threshold n_split_points
               max_bins curtail_under = Ok self) :
  exists s : LeafState,
    root self = Leaf s
    /\ depth s = 0
    /\ leaf_target_dist s = proba.empty
    /\ proba.total (leaf_target_dist s) = 0
    /\ split_enums s = ∅
    /\ leaf_n_samples s = 0
    /\ forall x : Example, path (root self) x = [Leaf s].
Proof.
  apply init_root in Hinit. rewrite Hinit.
  eexists. split; [reflexivity |]. by repeat split.
Qed.

Lemma init_root_is_fresh_leaf_witness :
  exists s : LeafState,
    root default_tree = Leaf s
    /\ depth s = 0
    /\ leaf_target_dist s = proba.empty
    /\ proba.total (leaf_target_dist s) = 0
    /\ split_enums s = ∅
    /\ leaf_n_samples s = 0
    /\ forall x : Example, path (root default_tree) x = [Leaf s].
Proof.
  apply (init_root_is_fresh_leaf "gini" 250 5 0%Q 20 (1 # 10000000000)%Q
           (5 # 100)%Q 30 60 10 default_tree).
  reflexivity.
Defined.

(** C6, as the claim words it, fails: with [max_bins] 0, below its stated
    minimum of 1, the constructor returns a tree. *)
Lemma init_accepts_zero_bins :
  valid_configuration "gini" 250 5 0 20 (1 # 10000000000) (5 # 100) 30 0 10
    = false
  /\ exists self : DecisionTreeClassifier,
       __init__ "gini" 250 5 0 20 (1 # 10000000000) (5 # 100) 30 0 10
         = Ok self
       /\ max_bins self = 0.
Proof. split; [reflexivity |]. eexists. split; reflexivity. Qed.

(** ** The split enumerator of a value *)

(** C3, at a boolean: [_get_split_enum] answers with a histogram
    enumerator, since a [bool] is a [numbers.Number] and that test comes
    first; it does not answer with the categorical enumerator. *)
Theorem get_split_enum_bool (self : DecisionTreeClassifier) (b : bool) :
  _get_split_enum self (PyBool b)
    = Ok (splitting.new_HistSplitEnum (max_bins self) (n_split_points self))
  /\ _get_split_enum self (PyBool b) <> Ok splitting.new_CategoricalSplitEnum.
Proof. split; [reflexivity | discriminate]. Qed.

(** The routing of the other supported values: numbers to a histogram
    enumerator made from [max_bins] and [n_split_points], text to the
    categorical one. *)
Lemma get_split_enum_number_str (self : DecisionTreeClassifier) :
  (forall n : Z,
      _get_split_enum self (PyInt n)
        = Ok (splitting.new_HistSplitEnum (max_bins self)
                (n_split_points self)))
  /\ (forall bits : Z,
        _get_split_enum self (PyFloat bits)
          = Ok (splitting.new_HistSplitEnum (max_bins self)
                  (n_split_points self)))
  /\ (forall re im : Z,
        _get_split_enum self (PyComplex re im)
          = Ok (splitting.new_HistSplitEnum (max_bins self)
                  (n_split_points self)))
  /\ (forall s : string,
        _get_split_enum self (PyStr s) = Ok splitting.new_CategoricalSplitEnum).
Proof. by repeat split. Qed.

(** C4: [_get_split_enum] raises exactly for the values that are neither
    numbers nor text nor booleans, with an error that names the value and
    its type, and returns an enumerator for every other value. *)
Theorem get_split_enum_unsupported (self : DecisionTreeClassifier)
    (value : PyValue) :
  (supported_type (type value) = false
   <-> _get_split_enum self value
       = Raise (splitting.UnsupportedFeatureType value))
  /\ (supported_type (type value) = true
      <-> returns (_get_split_enum self value))
  /\ names_value_and_type (splitting.UnsupportedFeatureType value) value.
Proof.
  split; [| split].
  - destruct value; cbn; split; intros H; done.
  - unfold returns. destruct value; cbn; split; intros H;
      first [ done | by eauto | by destruct H as [a [=]] ].
  - eexists. split; [reflexivity |]. split.
    + apply list_elem_of_lookup. by exists 1%nat.
    + apply list_elem_of_lookup. by exists 3%nat.
Qed.

(** ** fit_one *)

Section GrowthProperties.

Variable authorized_split :
  DecisionTreeClassifier -> LeafState -> option (Example -> bool).

Lemma get_split_enum_accepts (tree : DecisionTreeClassifier)
    (value : PyValue) :
  supported_type (type value) = true ->
  exists e : splitting.SplitEnum,
    _get_split_enum tree value = Ok e
    /\ splitting.accepts e value = true.
Proof. destruct value; intros H; try done; eexists; by split. Qed.

Lemma splitting_update_accepted (e : splitting.SplitEnum) (value : PyValue)
    (label : Label) (weight : Z) :
  splitting.accepts e value = true ->
  returns (splitting.update e value label weight).
Proof.
  unfold splitting.update, returns. intros ->. destruct e; eauto.
Qed.

Lemma update_enums_returns (tree : DecisionTreeClassifier)
    (items : list (string * PyValue)) (label : Label) :
  NoDup items.*1 ->
  forall enums : gmap string splitting.SplitEnum,
    forallb (well_typed_value enums) items = true ->
    returns (update_enums tree enums items label).
Proof.
  induction items as [|[i xi] items IH]; intros Hnd enums Hwt.
  - by eexists.
  - cbn [fmap list_fmap fst] in Hnd. apply NoDup_cons in Hnd as [Hi Hnd].
    cbn [forallb] in Hwt.
    apply andb_true_iff in Hwt as [Hwt Hrest].
    unfold well_typed_value in Hwt. cbn [fst snd] in Hwt.
    apply andb_true_iff in Hwt as [Hs Ha]. cbn [update_enums].
    assert (exists e, match enums !! i with
                      | Some e => Ok e
                      | None => _get_split_enum tree xi
                      end = Ok e
                      /\ splitting.accepts e xi = true)
      as (e & -> & Hacc).
    { destruct (enums !! i) as [e|]; [by eauto |].
      by apply get_split_enum_accepts. }
    cbn [exc_bind].
    destruct (splitting_update_accepted e xi label 1 Hacc) as [e' ->].
    cbn [exc_bind]. apply IH; [done |].
    rewrite forallb_forall in Hrest |- *.
    intros [j xj] Hin. specialize (Hrest _ Hin).
    unfold well_typed_value in *. cbn [fst snd] in *.
    rewrite lookup_insert_ne; [done |].
    intros ->. apply Hi. apply list_elem_of_In in Hin.
    by apply (list_elem_of_fmap_2 fst) in Hin.
Qed.


Lemma Leaf_update_returns (tree : DecisionTreeClassifier) (s : LeafState)
    (x : Example) (y : Label) :
  forallb (well_typed_value (split_enums s)) (map_to_list x) = true ->
  returns (Leaf_update authorized_split tree s x y).
Proof.
  intros Hwt. unfold Leaf_update.
  destruct (update_enums_returns tree (map_to_list x) y
              (NoDup_fst_map_to_list x) (split_enums s) Hwt) as [enums ->].
  cbn [exc_bind]. unfold returns.
  destruct (_ || _); [by eauto |].
  destruct (authorized_split _ _); by eauto.
Qed.

Lemma Node_update_returns (tree : DecisionTreeClassifier) (node : Node)
    (x : Example) (y : Label) :
  well_typed node x = true ->
  returns (Node_update authorized_split tree node x y).
Proof.
  unfold well_typed.
  induction node as [s | split l IHl r IHr d n]; intros Hwt.
  - by apply Leaf_update_returns.
  - cbn [Node_update]. cbn [reached_leaf] in Hwt. unfold next in Hwt.
    destruct (split x).
    + destruct (IHl Hwt) as [l' ->]. by eexists.
    + destruct (IHr Hwt) as [r' ->]. by eexists.
Qed.

Lemma update_enums_raises (tree : DecisionTreeClassifier)
    (items : list (string * PyValue)) (label : Label) (e : PyError) :
  forall enums : gmap string splitting.SplitEnum,
    update_enums tree enums items label = Raise e ->
    exists value : PyValue, e = splitting.UnsupportedFeatureType value.
Proof.
  induction items as [|[i xi] items IH]; intros enums; [done |].
  cbn [update_enums].
  assert (forall r, match enums !! i with
                    | Some e0 => Ok e0
                    | None => _get_split_enum tree xi
                    end = Raise r ->
                    r = splitting.UnsupportedFeatureType xi) as Hget.
  { intros r. destruct (enums !! i); [done |].
    unfold _get_split_enum. repeat case_match; try done. by intros [= <-]. }
  destruct (match enums !! i with Some _ => _ | None => _ end) as [e0 | r].
  - cbn [exc_bind]. unfold splitting.update.
    destruct (splitting.accepts e0 xi).
    + destruct e0; cbn [exc_bind]; apply IH.
    + intros [= <-]. by eexists.
  - intros [= <-]. rewrite (Hget r eq_refl). by eexists.
Qed.

Lemma Node_update_raises (tree : DecisionTreeClassifier) (node : Node)
    (x : Example) (y : Label) (e : PyError) :
  Node_update authorized_split tree node x y = Raise e ->
  exists value : PyValue, e = splitting.UnsupportedFeatureType value.
Proof.
  induction node as [s | split l IHl r IHr d n].
  - cbn [Node_update]. unfold Leaf_update.
    destruct (update_enums _ _ _ _) as [enums | r] eqn:Hu.
    + cbn [exc_bind]. destruct (_ || _); [done |].
      by destruct (authorized_split _ _).
    + intros [= <-]. by apply update_enums_raises in Hu.
  - cbn [Node_update]. destruct (split x).
    + destruct (Node_update _ _ l _ _); [done |].
      intros [= <-]. by apply IHl.
    + destruct (Node_update _ _ r _ _); [done |].
      intros [= <-]. by apply IHr.
Qed.

Lemma fit_one_eq (x : Example) (y : Label) (self : DecisionTreeClassifier) :
  fit_one authorized_split x y self =
    match Node_update authorized_split self (root self) x y with
    | Ok r => Ok (ReturnsSelf, with_root r self)
    | Raise e => Raise e
    end.
Proof.
  unfold fit_one, bind, get_self, lift, set_root, ret.
  by destruct (Node_update _ _ _ _ _).
Qed.

Lemma fit_one_raises (x : Example) (y : Label)
    (self : DecisionTreeClassifier) (e : PyError) :
  fit_one authorized_split x y self = Raise e ->
  exists value : PyValue, e = splitting.UnsupportedFeatureType value.
Proof.
  rewrite fit_one_eq.
  destruct (Node_update _ _ _ _ _) eqn:Hu; [done |].
  intros [= <-]. by apply Node_update_raises in Hu.
Qed.

(** C5, as the code has it: for an example whose feature values are well
    typed for the leaf it is routed to, [fit_one] does not fail; it returns
    the tree controller itself, whose root is now what the update of the
    old root answered. *)
Theorem fit_one_returns_self (x : Example) (y : Label)
    (self : DecisionTreeClassifier)
    (Hwt : well_typed (root self) x = true) :
  exists r : Node,
    Node_update authorized_split self (root self) x y = Ok r
    /\ fit_one authorized_split x y self = Ok (ReturnsSelf, with_root r self).
Proof.
  destruct (Node_update_returns self (root self) x y Hwt) as [r Hr].
  exists r. split; [done |]. by rewrite fit_one_eq, Hr.
Qed.

End GrowthProperties.

Lemma fit_one_returns_self_witness :
  well_typed (root default_tree) one_feature = true
  /\ exists r : Node,
       Node_update never_split default_tree (root default_tree)
         one_feature "a" = Ok r
       /\ fit_one never_split one_feature "a" default_tree
          = Ok (ReturnsSelf, with_root r default_tree).
Proof.
  split; [reflexivity |].
  apply (fit_one_returns_self never_split one_feature "a" default_tree).
  reflexivity.
Defined.

(** C5, as the claim words it, fails: on the tree made from the default
    arguments, [fit_one] of a well-typed example does not return nothing,
    it returns the controller. *)
Lemma fit_one_does_not_return_none :
  well_typed (root default_tree) one_feature = true
  /\ (exists self' : DecisionTreeClassifier,
        fit_one never_split one_feature "a" default_tree
          = Ok (ReturnsSelf, self'))
  /\ ~ (exists self' : DecisionTreeClassifier,
          fit_one never_split one_feature "a" default_tree
            = Ok (ReturnsNone, self')).
Proof.
  split; [reflexivity |].
  destruct (Node_update_returns never_split default_tree
              (root default_tree) one_feature "a" eq_refl) as [r Hr].
  rewrite fit_one_eq, Hr.
  split; [by eexists |]. by intros [? [=]].
Qed.

(** ** Failures *)

(** C8: [predict_proba_one] does not fail, whatever the state [t] of the
    tree, so also after any number of calls of [fit_one]; on the tree just
    made by the constructor it returns the empty pmf, which gives every
    label the mass 0. *)
Theorem predict_never_fails (criterion : string) (patience max_depth : Z)
    (min_split_gain : Q) (min_child_samples : Z)
    (confidence tie_threshold : Q)
    (n_split_points max_bins curtail_under : Z)
    (self t : DecisionTreeClassifier) (x : Example)
    (Hinit : __init__ criterion patience max_depth min_split_gain
               min_child_samples confidence tie_threshold n_split_points
               max_bins curtail_under = Ok self) :
  predict_proba_one x self = Ok (∅, self)
  /\ (forall label : Label, mass ∅ label = 0%Q)
  /\ exists r : gmap Label Q, predict_proba_one x t = Ok (r, t).
Proof.
  split; [| split].
  - apply init_root in Hinit.
    unfold predict_proba_one, bind, get_self, lift, ret.
    by rewrite Hinit.
  - intros label. unfold mass. by rewrite lookup_empty.
  - destruct (predict_proba_one_eq t x) as (k & node & _ & _ & Hp & _).
    by eexists.
Qed.

Lemma predict_never_fails_witness :
  predict_proba_one one_feature default_tree = Ok (∅, default_tree)
  /\ (forall label : Label, mass ∅ label = 0%Q)
  /\ exists r : gmap Label Q,
       predict_proba_one one_feature grown_tree = Ok (r, grown_tree).
Proof.
  apply (predict_never_fails "gini" 250 5 0%Q 20 (1 # 10000000000)%Q
           (5 # 100)%Q 30 60 10 default_tree grown_tree one_feature).
  reflexivity.
Defined.

(** C6, as the code has it: construction fails exactly when the criterion
    name is not a key of [CRITERIA_CLF], with the [KeyError] of the lookup,
    and succeeds for the names gini and entropy whatever the numeric
    arguments are; neither [fit_one] nor [predict_proba_one] raises a
    [KeyError]. *)
Theorem init_fails_iff_unknown_criterion (criterion : string)
    (patience max_depth : Z) (min_split_gain : Q) (min_child_samples : Z)
    (confidence tie_threshold : Q)
    (n_split_points max_bins curtail_under : Z) :
  (__init__ criterion patience max_depth min_split_gain min_child_samples
     confidence tie_threshold n_split_points max_bins curtail_under
   = Raise (KeyError criterion)
   <-> criterion <> "gini" /\ criterion <> "entropy")
  /\ (raises (__init__ criterion patience max_depth min_split_gain
                min_child_samples confidence tie_threshold n_split_points
                max_bins curtail_under)
      <-> criterion <> "gini" /\ criterion <> "entropy")
  /\ (returns (__init__ criterion patience max_depth min_split_gain
                 min_child_samples confidence tie_threshold n_split_points
                 max_bins curtail_under)
      <-> criterion = "gini" \/ criterion = "entropy")
  /\ (forall (authorized_split :
                DecisionTreeClassifier -> LeafState -> option (Example -> bool))
             (x : Example) (y : Label) (t : DecisionTreeClassifier)
             (key : string),
        fit_one authorized_split x y t <> Raise (KeyError key)
        /\ predict_proba_one x t <> Raise (KeyError key)).
Proof.
  split; [| split; [| split]].
  4: {
    intros authorized_split x y t key. split.
    - intros [value [=]]%fit_one_raises.
    - destruct (predict_proba_one_eq t x) as (k & node & _ & _ & -> & _).
      discriminate.
  }
  all: unfold raises, returns, __init__, exc_bind, getitem.
  all: rewrite CRITERIA_CLF_lookup.
  all: destruct (decide (criterion = "gini")) as [-> | Hg];
    [| destruct (decide (criterion = "entropy")) as [-> | He]].
  all: split;
    first [ by intros [? ?] | by intros [e [=]] | by intros [=]
          | by eauto | by intros [? | ?] ].
Qed.

(** * Further properties *)

Local Open Scope list_scope.

(** ** Strings *)

Lemma app_String (a : ascii) (p s : string) :
  String a p +:+ s = String a (p +:+ s).
Proof. reflexivity. Qed.

Lemma app_empty_r (p : string) : p +:+ "" = p.
Proof. induction p as [|a p IH]; [done |]. by rewrite app_String, IH. Qed.

Lemma app_assoc_string (p a b : string) : (p +:+ a) +:+ b = p +:+ (a +:+ b).
Proof. induction p as [|c p IH]; [done |]. by rewrite !app_String, IH. Qed.

Lemma len_app (p s : string) : len (p +:+ s) = (len p + len s)%nat.
Proof.
  induction p as [|a p IH]; [done |].
  rewrite app_String. unfold len in *. cbn [String.length]. by rewrite IH.
Qed.

Lemma drop_last_snoc (p : string) (c : ascii) :
  drop_last (p +:+ String c "") = p.
Proof.
  induction p as [|a p IH]; [done |].
  rewrite app_String. cbn [drop_last].
  destruct (p +:+ String c "") as [|a' s'] eqn:Hs.
  - pose proof (len_app p (String c "")) as Hl. rewrite Hs in Hl.
    unfold len in Hl. cbn in Hl. lia.
  - by rewrite IH.
Qed.

Lemma bits_cons (b : bool) (w : list bool) :
  bits (b :: w) = (if b then "1" else "0") +:+ bits w.
Proof. by destruct b. Qed.

Lemma bits_snoc (w : list bool) (b : bool) :
  bits (w ++ [b]) = bits w +:+ (if b then "1" else "0").
Proof.
  induction w as [|b' w IH]; [by destruct b |].
  cbn [app bits]. by rewrite IH.
Qed.

Lemma len_bits (w : list bool) : len (bits w) = length w.
Proof.
  induction w as [|b w IH]; [done |].
  unfold len in *. cbn. by rewrite IH.
Qed.

(** ** draw *)

Lemma add_node_app (node : Node) (p : string) (dot : graphviz.Digraph) :
  add_node node p dot = (dot ++ add_node node p [])%list.
Proof.
  revert p dot.
  induction node as [s | split l IHl r IHr d n]; intros p dot.
  - cbn [add_node]. unfold graphviz.node, graphviz.edge.
    destruct (negb _); [| done]. by rewrite <- app_assoc.
  - cbn [add_node]. unfold graphviz.node, graphviz.edge.
    rewrite (IHr (p +:+ "1") (add_node l _ _)).
    rewrite (IHl (p +:+ "0") (dot ++ _)).
    rewrite (IHr (p +:+ "1") (add_node l _ ([] ++ _))).
    rewrite (IHl (p +:+ "0") ([] ++ _)).
    destruct (negb _); by rewrite <- ?app_assoc.
Qed.

Lemma add_node_Leaf (s : LeafState) (p : string) :
  add_node (Leaf s) p [] =
    graphviz.Node p (StrDist (leaf_target_dist s)) (Some "box")
    :: (if negb (Nat.eqb (len p) 1) then [graphviz.Edge (drop_last p) p]
        else []).
Proof. cbn. by destruct (negb _). Qed.

Lemma add_node_Branch (split : Example -> bool) (l r : Node)
    (d : proba.Multinomial) (n : Z) (p : string) :
  add_node (Branch split l r d n) p [] =
    graphviz.Node p (StrSplit split) None
    :: (add_node l (p +:+ "0") [] ++ add_node r (p +:+ "1") []
        ++ (if negb (Nat.eqb (len p) 1) then [graphviz.Edge (drop_last p) p]
            else []))%list.
Proof.
  cbn [add_node]. unfold graphviz.node, graphviz.edge.
  rewrite (add_node_app r), (add_node_app l).
  destruct (negb _); cbn [app]; rewrite <- ?app_assoc; [done |].
  by rewrite app_nil_r.
Qed.

Lemma draw_eq (self : DecisionTreeClassifier) :
  draw self = Ok (add_node (root self) "0" [], self).
Proof. reflexivity. Qed.

Lemma dot_nodes_link (p : string) :
  dot_nodes (if negb (Nat.eqb (len p) 1) then [graphviz.Edge (drop_last p) p]
             else []) = [].
Proof. by destruct (negb _). Qed.

Lemma dot_edges_link (p : string) :
  dot_edges (if negb (Nat.eqb (len p) 1) then [graphviz.Edge (drop_last p) p]
             else [])
  = if negb (Nat.eqb (len p) 1) then [(drop_last p, p)] else [].
Proof. by destruct (negb _). Qed.

Lemma dot_nodes_Leaf (s : LeafState) (p : string) :
  dot_nodes (add_node (Leaf s) p [])
  = [(p, StrDist (leaf_target_dist s), Some "box")].
Proof.
  rewrite add_node_Leaf. unfold dot_nodes at 1. cbn [omap list_omap].
  fold (dot_nodes (if negb (Nat.eqb (len p) 1)
                   then [graphviz.Edge (drop_last p) p] else [])).
  by rewrite dot_nodes_link.
Qed.

Lemma dot_nodes_Branch (split : Example -> bool) (l r : Node)
    (d : proba.Multinomial) (n : Z) (p : string) :
  dot_nodes (add_node (Branch split l r d n) p [])
  = (p, StrSplit split, None)
    :: dot_nodes (add_node l (p +:+ "0") [])
       ++ dot_nodes (add_node r (p +:+ "1") []).
Proof.
  rewrite add_node_Branch. unfold dot_nodes at 1. cbn [omap list_omap].
  rewrite !omap_app.
  fold (dot_nodes (if negb (Nat.eqb (len p) 1)
                   then [graphviz.Edge (drop_last p) p] else [])).
  rewrite dot_nodes_link, app_nil_r. reflexivity.
Qed.

Lemma dot_edges_Leaf (s : LeafState) (p : string) :
  dot_edges (add_node (Leaf s) p [])
  = if negb (Nat.eqb (len p) 1) then [(drop_last p, p)] else [].
Proof.
  rewrite add_node_Leaf. unfold dot_edges at 1. cbn [omap list_omap].
  apply dot_edges_link.
Qed.

Lemma dot_edges_Branch (split : Example -> bool) (l r : Node)
    (d : proba.Multinomial) (n : Z) (p : string) :
  dot_edges (add_node (Branch split l r d n) p [])
  = dot_edges (add_node l (p +:+ "0") [])
    ++ dot_edges (add_node r (p +:+ "1") [])
    ++ (if negb (Nat.eqb (len p) 1) then [(drop_last p, p)] else []).
Proof.
  rewrite add_node_Branch. unfold dot_edges at 1. cbn [omap list_omap].
  rewrite !omap_app.
  fold (dot_edges (if negb (Nat.eqb (len p) 1)
                   then [graphviz.Edge (drop_last p) p] else [])).
  by rewrite dot_edges_link.
Qed.

Lemma leaves_branches (node : Node) :
  leaves node = S (branches node)
  /\ size node = (leaves node + branches node)%nat.
Proof.
  induction node as [s | split l [IHl1 IHl2] r [IHr1 IHr2] d n]; cbn; lia.
Qed.

Lemma count_nodes (node : Node) (p : string) :
  length (dot_nodes (add_node node p [])) = size node
  /\ length (dot_boxes (add_node node p [])) = leaves node.
Proof.
  revert p. induction node as [s | split l IHl r IHr d n]; intros p.
  - unfold dot_boxes. by rewrite dot_nodes_Leaf.
  - unfold dot_boxes in *. rewrite dot_nodes_Branch.
    destruct (IHl (p +:+ "0")) as [Hl1 Hl2].
    destruct (IHr (p +:+ "1")) as [Hr1 Hr2].
    split.
    + cbn [length size]. by rewrite length_app, Hl1, Hr1.
    + rewrite filter_cons_False by done.
      rewrite filter_app, length_app, Hl2, Hr2. done.
Qed.

Lemma count_edges (node : Node) (p : string) :
  (1 <= len p)%nat ->
  length (dot_edges (add_node node p []))
  = (size node - (if Nat.eqb (len p) 1 then 1 else 0))%nat.
Proof.
  revert p. induction node as [s | split l IHl r IHr d n]; intros p Hp.
  - rewrite dot_edges_Leaf. by destruct (Nat.eqb (len p) 1).
  - rewrite dot_edges_Branch, !length_app.
    rewrite IHl, IHr by (rewrite len_app; cbn; lia).
    rewrite !len_app. cbn [len String.length].
    replace (Nat.eqb (len p + 1) 1) with false
      by (symmetry; apply Nat.eqb_neq; lia).
    cbn [size]. destruct (Nat.eqb (len p) 1); cbn [negb length]; lia.
Qed.

(** X1: the graph that [draw] makes has one node for every node of the
    tree and one edge for every node but the root; its boxes are as many as
    the leaves of the tree, one more than the other nodes. *)
Theorem draw_counts (self : DecisionTreeClassifier) :
  exists dot : graphviz.Digraph,
    draw self = Ok (dot, self)
    /\ length (dot_nodes dot) = size (root self)
    /\ S (length (dot_edges dot)) = size (root self)
    /\ length (dot_boxes dot) = leaves (root self)
    /\ length (dot_boxes dot)
       = S (length (dot_nodes dot) - length (dot_boxes dot)).
Proof.
  exists (add_node (root self) "0" []). split; [apply draw_eq |].
  destruct (count_nodes (root self) "0") as [Hn Hb].
  destruct (leaves_branches (root self)) as [Hl Hs].
  rewrite Hn, Hb, count_edges by (cbn; lia).
  cbn [len String.length Nat.eqb].
  assert (1 <= size (root self))%nat by (destruct (root self); cbn; lia).
  repeat split; lia.
Qed.

Lemma node_drawn (node : Node) (p : string) (nd : string * DotLabel * option string) :
  nd ∈ dot_nodes (add_node node p [])
  <-> exists (w : list bool) (m : Node),
        subtree node w = Some m /\ nd = (p +:+ bits w, (drawn_as m).1, (drawn_as m).2).
Proof.
  revert p. induction node as [s | split l IHl r IHr d n]; intros p.
  - rewrite dot_nodes_Leaf, list_elem_of_singleton. split.
    + intros ->. exists [], (Leaf s). by rewrite app_empty_r.
    + intros ([|b w] & m & Hm & ->); [| done].
      injection Hm as <-. by rewrite app_empty_r.
  - rewrite dot_nodes_Branch, elem_of_cons, elem_of_app, IHl, IHr. split.
    + intros [-> | [(w & m & Hm & ->) | (w & m & Hm & ->)]].
      * exists [], (Branch split l r d n). by rewrite app_empty_r.
      * exists (false :: w), m. split; [done |].
        by rewrite app_assoc_string.
      * exists (true :: w), m. split; [done |].
        by rewrite app_assoc_string.
    + intros ([|[] w] & m & Hm & ->).
      * left. injection Hm as <-. by rewrite app_empty_r.
      * right. right. exists w, m. split; [done |].
        by rewrite app_assoc_string.
      * right. left. exists w, m. split; [done |].
        by rewrite app_assoc_string.
Qed.

Lemma edge_drawn (node : Node) (p t h : string) :
  (t, h) ∈ dot_edges (add_node node p [])
  <-> exists (w : list bool) (m : Node),
        subtree node w = Some m /\ h = p +:+ bits w
        /\ t = drop_last h /\ len h <> 1%nat.
Proof.
  assert (forall q : string,
             (t, h) ∈ (if negb (Nat.eqb (len q) 1) then [(drop_last q, q)]
                       else [])
             <-> h = q /\ t = drop_last h /\ len h <> 1%nat) as Hlink.
  { intros q. destruct (Nat.eqb (len q) 1) eqn:Hq; cbn [negb].
    - apply Nat.eqb_eq in Hq. rewrite elem_of_nil.
      split; [done |]. intros (-> & _ & Hn). done.
    - apply Nat.eqb_neq in Hq. rewrite list_elem_of_singleton. split.
      + by intros [= -> ->].
      + by intros (-> & -> & _). }
  revert p. induction node as [s | split l IHl r IHr d n]; intros p.
  - rewrite dot_edges_Leaf, Hlink. split.
    + intros (-> & -> & Hn). exists [], (Leaf s).
      by rewrite app_empty_r.
    + intros ([|b w] & m & Hm & -> & -> & Hn); [| done].
      by rewrite app_empty_r in *.
  - rewrite dot_edges_Branch, !elem_of_app, IHl, IHr, Hlink. split.
    + intros [(w & m & Hm & -> & -> & Hn) | [(w & m & Hm & -> & -> & Hn)
                                           | (-> & -> & Hn)]].
      * exists (false :: w), m. by rewrite app_assoc_string in *.
      * exists (true :: w), m. by rewrite app_assoc_string in *.
      * exists [], (Branch split l r d n). by rewrite app_empty_r.
    + intros ([|[] w] & m & Hm & -> & -> & Hn).
      * right. right. by rewrite app_empty_r in *.
      * right. left. exists w, m. by rewrite app_assoc_string.
      * left. exists w, m. by rewrite app_assoc_string.
Qed.

Lemma subtree_snoc (node : Node) (w : list bool) (b : bool) (m : Node) :
  subtree node (w ++ [b]) = Some m
  <-> exists (split : Example -> bool) (l r : Node)
             (d : proba.Multinomial) (n : Z),
        subtree node w = Some (Branch split l r d n)
        /\ m = if b then r else l.
Proof.
  revert node. induction w as [|b' w IH]; intros node.
  - destruct node as [s | split l r d n].
    + split; [done |]. by intros (? & ? & ? & ? & ? & [=] & _).
    + split.
      * intros Hm. exists split, l, r, d, n. split; [done |].
        destruct b; cbn in Hm; by simplify_eq.
      * intros (? & ? & ? & ? & ? & Hm & ->). cbn in Hm. simplify_eq.
        by destruct b.
  - destruct node as [s | split l r d n].
    + split; [done |]. by intros (? & ? & ? & ? & ? & [=] & _).
    + change (subtree (Branch split l r d n) ((b' :: w) ++ [b]))
        with (subtree (if b' then r else l) (w ++ [b])).
      change (subtree (Branch split l r d n) (b' :: w))
        with (subtree (if b' then r else l) w).
      apply IH.
Qed.

(** X2: every node of the tree is drawn, under the name 0 followed by
    the way to it from the root, a 0 for a step to the left and a 1 for a
    step to the right; a leaf is a box labelled with its target
    distribution, a branch is labelled with its split. *)
Theorem draw_nodes (self : DecisionTreeClassifier) :
  exists dot : graphviz.Digraph,
    draw self = Ok (dot, self)
    /\ forall (name : string) (label : DotLabel) (shape : option string),
         (name, label, shape) ∈ dot_nodes dot
         <-> exists (w : list bool) (m : Node),
               subtree (root self) w = Some m
               /\ name = "0" +:+ bits w
               /\ (label, shape) = drawn_as m.
Proof.
  exists (add_node (root self) "0" []). split; [apply draw_eq |].
  intros name label shape. rewrite node_drawn. split.
  - intros (w & m & Hm & [= -> -> ->]). exists w, m.
    by destruct (drawn_as m).
  - intros (w & m & Hm & -> & Hd). exists w, m. by rewrite <- Hd.
Qed.

(** X3: the edges of the graph are the links of the tree: there is an edge
    from one name to another exactly when the first is the name of a
    branch and the second is that name followed by 0 or by 1, the names of
    its left and right children. *)
Theorem draw_edges (self : DecisionTreeClassifier) :
  exists dot : graphviz.Digraph,
    draw self = Ok (dot, self)
    /\ forall t h : string,
         (t, h) ∈ dot_edges dot
         <-> exists (w : list bool) (b : bool) (split : Example -> bool)
                    (l r : Node) (d : proba.Multinomial) (n : Z),
               subtree (root self) w = Some (Branch split l r d n)
               /\ t = "0" +:+ bits w
               /\ h = t +:+ (if b then "1" else "0").
Proof.
  exists (add_node (root self) "0" []). split; [apply draw_eq |].
  intros t h. rewrite edge_drawn. split.
  - intros (w & m & Hm & -> & -> & Hn).
    destruct w as [|b0 w0] using rev_ind; [done |]. clear IHw0.
    apply subtree_snoc in Hm as (split & l & r & d & n & Hw & _).
    exists w0, b0, split, l, r, d, n. split; [done |].
    rewrite bits_snoc, <- app_assoc_string.
    assert (drop_last (("0" +:+ bits w0) +:+ (if b0 then "1" else "0"))
            = "0" +:+ bits w0) as ->
      by (destruct b0; apply drop_last_snoc).
    done.
  - intros (w & b & split & l & r & d & n & Hw & -> & ->).
    exists (w ++ [b]), (if b then r else l).
    split; [apply subtree_snoc; by eexists _, _, _, _, _ |].
    rewrite bits_snoc, <- app_assoc_string. split; [done |].
    split; [by destruct b; rewrite drop_last_snoc |].
    rewrite !len_app, len_bits. destruct b; cbn; lia.
Qed.

Lemma name_drawn (node : Node) (p name : string) :
  name ∈ dot_names (add_node node p []) ->
  exists w : list bool, name = p +:+ bits w.
Proof.
  unfold dot_names. intros ([[n l] s] & -> & Hin)%list_elem_of_fmap.
  apply node_drawn in Hin as (w & m & _ & [= -> _ _]). by exists w.
Qed.

Lemma dot_names_distinct (node : Node) (p : string) :
  NoDup (dot_names (add_node node p [])).
Proof.
  revert p. induction node as [s | split l IHl r IHr d n]; intros p.
  - unfold dot_names. rewrite dot_nodes_Leaf. apply NoDup_singleton.
  - unfold dot_names. rewrite dot_nodes_Branch, fmap_cons, fmap_app.
    fold (dot_names (add_node l (p +:+ "0") [])).
    fold (dot_names (add_node r (p +:+ "1") [])).
    apply NoDup_cons. split.
    + cbn [fst]. intros [Hin | Hin]%elem_of_app;
        apply name_drawn in Hin as [w Hw];
        apply (f_equal len) in Hw; rewrite !len_app in Hw;
        cbn [len String.length] in Hw; lia.
    + apply NoDup_app. split; [apply IHl |]. split; [| apply IHr].
      intros name [w Hw]%name_drawn [w' Hw']%name_drawn.
      rewrite Hw, !app_assoc_string in Hw'.
      apply (inj (String.app p)) in Hw'. discriminate Hw'.
Qed.

(** X4: the names of the nodes of the graph are pairwise distinct. *)
Theorem draw_names_distinct (self : DecisionTreeClassifier) :
  exists dot : graphviz.Digraph,
    draw self = Ok (dot, self) /\ NoDup (dot_names dot).
Proof.
  exists (add_node (root self) "0" []). split; [apply draw_eq |].
  apply dot_names_distinct.
Qed.

(** ** debug_one *)

Lemma debug_loop_path (node : Node) (x : Example) :
  debug_loop (path node x) x = printed_for x <$> path node x.
Proof.
  induction node as [s | split l IHl r IHr d n]; [done |].
  cbn [path debug_loop fmap list_fmap printed_for]. f_equal.
  unfold next. by destruct (split x).
Qed.

Lemma path_last (node : Node) (x : Example) :
  last (path node x) = Some (Leaf (reached_leaf node x)).
Proof.
  induction node as [s | split l IHl r IHr d n]; [done |].
  cbn [path reached_leaf].
  destruct (path_nonempty (next split l r x) x) as [rest Hp].
  rewrite Hp, last_cons_cons, <- Hp.
  unfold next. by destruct (split x).
Qed.

Lemma path_init_branches (node : Node) (x : Example) (i : nat) (m : Node) :
  path node x !! i = Some m ->
  (S i < length (path node x))%nat ->
  exists (split : Example -> bool) (l r : Node) (d : proba.Multinomial)
         (n : Z), m = Branch split l r d n.
Proof.
  revert i. induction node as [s | split l IHl r IHr d n]; intros i.
  - cbn. lia.
  - cbn [path length]. destruct i as [|i].
    + intros [= <-] _. by eexists _, _, _, _, _.
    + cbn [lookup list_lookup]. intros Hm Hlt. unfold next in *.
      destruct (split x); [eapply IHl | eapply IHr]; eauto; lia.
Qed.

(** X5: [debug_one] prints one line for every node of the path of [x] and
    leaves the tree as it was: for each branch its split, after the word
    not when the split holds of [x], and last the target distribution of
    the leaf that [x] is routed to; every node of the path before the last
    is a branch. *)
Theorem debug_one_prints_path (self : DecisionTreeClassifier) (x : Example) :
  debug_one x self = Ok (printed_for x <$> path (root self) x, self)
  /\ last (printed_for x <$> path (root self) x)
     = Some [ArgDist (leaf_target_dist (reached_leaf (root self) x))]
  /\ forall (i : nat) (m : Node),
       path (root self) x !! i = Some m ->
       (S i < length (path (root self) x))%nat ->
       exists (split : Example -> bool) (l r : Node)
              (d : proba.Multinomial) (n : Z),
         m = Branch split l r d n
         /\ (printed_for x <$> path (root self) x) !! i
            = Some (if split x then [ArgStr "not"; ArgSplit split]
                    else [ArgSplit split]).
Proof.
  split; [| split].
  - unfold debug_one, bind, get_self, ret. by rewrite debug_loop_path.
  - by rewrite fmap_last, path_last.
  - intros i m Hm Hlt.
    destruct (path_init_branches _ _ _ _ Hm Hlt)
      as (split & l & r & d & n & ->).
    exists split, l, r, d, n. split; [done |].
    by rewrite list_lookup_fmap, Hm.
Qed.

(** ** predict_proba_one, further *)

Lemma first_eligible_zero (cu : Z) (p : list Node) (k : nat) :
  eligible cu p 0 = true -> is_first_eligible cu p k = true -> k = 0%nat.
Proof.
  rewrite is_first_eligible_spec. intros H0 [_ Hj].
  destruct k as [|k]; [done |].
  rewrite (Hj 0%nat) in H0 by lia. done.
Qed.

Lemma first_eligible_mono (cu1 cu2 : Z) (p : list Node) (k1 k2 : nat) :
  cu1 <= cu2 ->
  is_first_eligible cu1 p k1 = true ->
  is_first_eligible cu2 p k2 = true ->
  (k2 <= k1)%nat.
Proof.
  rewrite !is_first_eligible_spec. intros Hcu [He1 _] [_ Hj2].
  destruct (decide (k2 <= k1)%nat) as [| Hlt]; [done |].
  specialize (Hj2 k1 ltac:(lia)). unfold eligible in *.
  destruct (p !! S k1) as [c|]; [| done].
  apply Z.ltb_lt in He1. apply Z.ltb_ge in Hj2. lia.
Qed.

Lemma first_eligible_last (cu : Z) (p : list Node) (k : nat) (node : Node) :
  forallb (fun a => cu <=? n_samples a) (tail p) = true ->
  p !! k = Some node ->
  is_first_eligible cu p k = true ->
  last p = Some node.
Proof.
  rewrite forallb_forall, is_first_eligible_spec.
  intros Hall Hk [He _]. unfold eligible in He.
  destruct (p !! S k) as [c|] eqn:Hc.
  - assert (In c (tail p)) as Hin.
    { apply list_elem_of_In, list_elem_of_lookup. exists k.
      by rewrite lookup_tail. }
    apply Hall, Z.leb_le in Hin. apply Z.ltb_lt in He. lia.
  - apply lookup_ge_None in Hc. apply lookup_lt_Some in Hk as Hlt.
    rewrite last_lookup. replace (pred (length p)) with k by lia. done.
Qed.

(** X6: when every node of the path of [x] below the root has at least
    [curtail_under] samples, [predict_proba_one] answers with the target
    distribution of the leaf that [x] is routed to. *)
Theorem predict_mature_path (self : DecisionTreeClassifier) (x : Example)
    (Hmature : forallb (fun a => curtail_under self <=? n_samples a)
                 (tail (path (root self) x)) = true) :
  predict_proba_one x self
  = Ok (pmf_dict (leaf_target_dist (reached_leaf (root self) x)), self).
Proof.
  destruct (predict_proba_one_eq self x) as (k & node & Hk & Hf & Hp & _).
  pose proof (first_eligible_last _ _ _ _ Hmature Hk Hf) as Hlast.
  rewrite path_last in Hlast. injection Hlast as <-. done.
Qed.

Lemma predict_mature_path_witness :
  predict_proba_one ∅ deep_tree_5
  = Ok (pmf_dict (leaf_target_dist (reached_leaf (root deep_tree_5) ∅)),
        deep_tree_5).
Proof. apply (predict_mature_path deep_tree_5 ∅). reflexivity. Defined.

(** X7: when the root is a leaf, or the second node of the path of [x] has
    fewer than [curtail_under] samples, [predict_proba_one] answers with
    the target distribution of the root, however many samples the root
    has. *)
Theorem predict_root_answers (self : DecisionTreeClassifier) (x : Example)
    (Hroot : eligible (curtail_under self) (path (root self) x) 0 = true) :
  predict_proba_one x self = Ok (pmf_dict (target_dist (root self)), self).
Proof.
  destruct (predict_proba_one_eq self x) as (k & node & Hk & Hf & Hp & _).
  rewrite (first_eligible_zero _ _ _ Hroot Hf) in Hk.
  destruct (path_nonempty (root self) x) as [rest Hpath].
  rewrite Hpath in Hk. injection Hk as <-. done.
Qed.

Lemma predict_root_answers_witness :
  predict_proba_one ∅ grown_tree
  = Ok (pmf_dict (target_dist (root grown_tree)), grown_tree).
Proof. apply (predict_root_answers grown_tree ∅). reflexivity. Defined.

(** X8: on the same tree, a larger [curtail_under] never moves the answer
    of [predict_proba_one] further from the root. *)
Theorem predict_curtail_under_monotone (self1 self2 : DecisionTreeClassifier)
    (x : Example)
    (Hroot : root self1 = root self2)
    (Hcu : curtail_under self1 <= curtail_under self2) :
  exists (k1 k2 : nat) (node1 node2 : Node),
    path (root self1) x !! k1 = Some node1
    /\ path (root self1) x !! k2 = Some node2
    /\ predict_proba_one x self1 = Ok (pmf_dict (target_dist node1), self1)
    /\ predict_proba_one x self2 = Ok (pmf_dict (target_dist node2), self2)
    /\ (k2 <= k1)%nat.
Proof.
  destruct (predict_proba_one_eq self1 x) as (k1 & n1 & Hk1 & Hf1 & Hp1 & _).
  destruct (predict_proba_one_eq self2 x) as (k2 & n2 & Hk2 & Hf2 & Hp2 & _).
  rewrite <- Hroot in Hk2, Hf2.
  exists k1, k2, n1, n2. repeat split; try done.
  by apply (first_eligible_mono _ _ _ _ _ Hcu Hf1 Hf2).
Qed.

Lemma predict_curtail_under_monotone_witness :
  exists (k1 k2 : nat) (node1 node2 : Node),
    path (root deep_tree_5) ∅ !! k1 = Some node1
    /\ path (root deep_tree_5) ∅ !! k2 = Some node2
    /\ predict_proba_one ∅ deep_tree_5
       = Ok (pmf_dict (target_dist node1), deep_tree_5)
    /\ predict_proba_one ∅ deep_tree
       = Ok (pmf_dict (target_dist node2), deep_tree)
    /\ (k2 <= k1)%nat.
Proof.
  apply (predict_curtail_under_monotone deep_tree_5 deep_tree ∅).
  - reflexivity.
  - cbn. lia.
Defined.

Lemma pmf_dict_lookup (d : proba.Multinomial) (c : Label) :
  pmf_dict d !! c = (fun _ => proba.pmf d c) <$> d !! c.
Proof.
  unfold pmf_dict. rewrite map_lookup_imap.
  unfold proba.Multinomial, Label in *. by destruct (d !! c).
Qed.

(** X9: the result of [predict_proba_one] has exactly the labels observed
    at the node that answers, each with its probability there; a label
    that was not observed at that node is absent from the result. *)
Theorem predict_labels (self : DecisionTreeClassifier) (x : Example) :
  exists (k : nat) (node : Node) (r : gmap Label Q),
    path (root self) x !! k = Some node
    /\ is_first_eligible (curtail_under self) (path (root self) x) k = true
    /\ predict_proba_one x self = Ok (r, self)
    /\ (forall c : Label,
          r !! c = (fun _ => proba.pmf (target_dist node) c)
                     <$> target_dist node !! c)
    /\ (forall c : Label,
          target_dist node !! c = None <-> r !! c = None).
Proof.
  destruct (predict_proba_one_eq self x) as (k & node & Hk & Hf & Hp & _).
  exists k, node, (pmf_dict (target_dist node)).
  repeat split; try done.
  - apply pmf_dict_lookup.
  - intros H. by rewrite pmf_dict_lookup, H.
  - rewrite pmf_dict_lookup. by destruct (target_dist node !! c).
Qed.

(** ** creme.datasets.synth *)

(** X10: the names that the module exports are the names it imports, in
    the order of the imports, each of them once. *)
Theorem synth_all_is_imports :
  synth.__all__ = synth.imports.*2 /\ NoDup synth.__all__.
Proof.
  split; [reflexivity |].
  apply (bool_decide_unpack _). vm_compute. exact I.
Qed.
